(** * nhlpy.stats.client: the NHL stats API client

    A shallow embedding of [src/nhlpy/stats/client.py].  Every method of
    [Client] is a computation in a small state-and-exception monad: the
    state holds the client object and the log of the HTTP requests handed
    to [requests.get]; a computation either returns a Python value or
    raises.  The [requests] library is outside the repository and enters
    as two section variables: the transport and the JSON decoder. *)

From stdpp Require Import gmap strings list fin_maps.
From Stdlib Require Import ZArith.

Local Open Scope Z_scope.
Set Warnings "-register-all".

(** ** Python values *)

(** The values that flow through the client: arguments, query parameters
    and decoded JSON bodies.  A float is kept as its binary64 bit pattern;
    the client never computes with one. *)
Inductive pyval : Type :=
| PNone
| PBool (b : bool)
| PInt (n : Z)
| PFloat (bits : Z)
| PStr (s : string)
| PList (l : list pyval)
| PDict (d : list (string * pyval)).

Inductive exn : Type :=
| TypeError
| IndexError
| NotImplementedError
| RequestException (msg : string)
| JSONDecodeError.

Inductive result (A : Type) : Type :=
| Ok (a : A)
| Raise (e : exn).
Arguments Ok {A} a.
Arguments Raise {A} e.

#[export] Instance result_ret : MRet result := fun _ a => Ok a.
#[export] Instance result_bind : MBind result := fun _ _ f r =>
  match r with
  | Ok a => f a
  | Raise e => Raise e
  end.

(** [bool(v)]. *)
Definition truthy (v : pyval) : bool :=
  match v with
  | PNone => false
  | PBool b => b
  | PInt n => negb (n =? 0)
  | PFloat bits => negb ((bits =? 0) || (bits =? 2 ^ 63))
  | PStr s => match s with EmptyString => false | String _ _ => true end
  | PList l => match l with [] => false | _ :: _ => true end
  | PDict d => match d with [] => false | _ :: _ => true end
  end.

Fixpoint chars (s : string) : list pyval :=
  match s with
  | EmptyString => []
  | String c s' => PStr (String c EmptyString) :: chars s'
  end.

(** [list(iter(v))]: [None], booleans and numbers are not iterable. *)
Definition py_iter (v : pyval) : result (list pyval) :=
  match v with
  | PList l => Ok l
  | PStr s => Ok (chars s)
  | PDict d => Ok (PStr <$> d.*1)
  | PNone | PBool _ | PInt _ | PFloat _ => Raise TypeError
  end.

(** [filter(None, v)]: the truthy items of an iterable. *)
Definition py_filter_none (v : pyval) : result (list pyval) :=
  l ← py_iter v; mret (List.filter truthy l).

(** The items of a sequence handed to [str.join]: each must be a [str]. *)
Fixpoint str_items (l : list pyval) : result (list string) :=
  match l with
  | [] => Ok []
  | PStr s :: l' => ss ← str_items l'; mret (s :: ss)
  | _ :: _ => Raise TypeError
  end.

(** [sep.join(l)]. *)
Definition str_join (sep : string) (l : list pyval) : result string :=
  ss ← str_items l; mret (String.concat sep ss).

(** [l[i]]. *)
Definition py_index {A} (l : list A) (i : nat) : result A :=
  match l !! i with
  | Some a => Ok a
  | None => Raise IndexError
  end.

(** An argument annotated [str = None] or [List[str] = None], as a value. *)
Definition of_opt_str (o : option string) : pyval :=
  match o with
  | None => PNone
  | Some s => PStr s
  end.

(** [f'{o}'] for such an argument. *)
Definition fstr (o : option string) : string :=
  match o with
  | None => "None"
  | Some s => s
  end.

Definition of_opt_list (o : option (list string)) : pyval :=
  match o with
  | None => PNone
  | Some l => PList (PStr <$> l)
  end.

(** ** Requests, responses and the client object *)

Record request : Type := Request {
  req_url : string;
  req_params : option (gmap string pyval)
}.

Record response : Type := Response {
  status_code : Z;
  text : string
}.

Record Client : Type := MkClient {
  base_url : string
}.

(** [Client.__init__]. *)
Definition Client_init : Client :=
  {| base_url := "https://statsapi.web.nhl.com/api/v1/" |}.

Record world : Type := World {
  self : Client;
  sent : list request
}.

Definition M (A : Type) : Type := world → world * result A.

#[export] Instance M_ret : MRet M := fun _ a w => (w, Ok a).
#[export] Instance M_bind : MBind M := fun _ _ f m w =>
  match m w with
  | (w', Ok a) => f a w'
  | (w', Raise e) => (w', Raise e)
  end.

Definition raise {A} (e : exn) : M A := fun w => (w, Raise e).

Definition lift {A} (r : result A) : M A := fun w => (w, r).

(** [self.base_url]. *)
Definition self_base_url : M string := fun w => (w, Ok (base_url (self w))).

Definition init_world : world := {| self := Client_init; sent := [] |}.

(** An argument of a parameter that has no default. *)
Inductive actual (A : Type) : Type :=
| Omitted
| Given (a : A).
Arguments Omitted {A}.
Arguments Given {A} a.

Section Client.

(** [requests.get]: given the requests made so far and the new one, the
    network either fails or answers with a status and a body. *)
Variable transport : list request → request → string + response.

(** The JSON decoder behind [Response.json]. *)
Variable json_loads : string → option pyval.

Definition requests_get (url : string) (params : option (gmap string pyval))
  : M response := fun w =>
  let r := Request url params in
  let w' := {| self := self w; sent := sent w ++ [r] |} in
  match transport (sent w) r with
  | inl msg => (w', Raise (RequestException msg))
  | inr resp => (w', Ok resp)
  end.

Definition Response_json (resp : response) : M pyval :=
  match json_loads (text resp) with
  | Some v => mret v
  | None => raise JSONDecodeError
  end.

Definition _get_response_json (url : string)
    (params : option (gmap string pyval)) : M pyval :=
  resp ← requests_get url params;
  Response_json resp.

Definition get_conferences (conference_id : option string) : M pyval :=
  base ← self_base_url;
  let url := base +:+ "conferences" in
  let url := if truthy (of_opt_str conference_id)
             then url +:+ "/" +:+ fstr conference_id else url in
  _get_response_json url None.

Definition get_divisions (division_id : option string) : M pyval :=
  base ← self_base_url;
  let url := base +:+ "divisions" in
  let url := if truthy (of_opt_str division_id)
             then url +:+ "/" +:+ fstr division_id else url in
  _get_response_json url None.

Definition get_draft (year : option string) : M pyval :=
  raise NotImplementedError.

Definition get_franchises (franchise_id : option string) : M pyval :=
  base ← self_base_url;
  let url := base +:+ "franchises" in
  let url := if truthy (of_opt_str franchise_id)
             then url +:+ "/" +:+ fstr franchise_id else url in
  _get_response_json url None.

Definition get_player (player_id : string) : M pyval :=
  base ← self_base_url;
  let url := base +:+ ("people/" +:+ player_id) in
  _get_response_json url None.

Definition get_player_stats (player_id : string) : M pyval :=
  base ← self_base_url;
  let url := base +:+ ("people/" +:+ player_id +:+ "/stats") in
  _get_response_json url None.

(** The body ends with a bare call, not a [return]: the decoded value is
    dropped and the method returns [None]. *)
Definition get_player_stats_for_season (player_id season : string)
  : M pyval :=
  base ← self_base_url;
  let url := base +:+ ("people/" +:+ player_id +:+ "/stats") in
  let params : gmap string pyval :=
    <["season" := PStr season]> (<["stats" := PStr "statsSingleSeason"]> ∅) in
  _ ← _get_response_json url (Some params);
  mret PNone.

Definition get_player_stats_year_by_year (player_id : string) : M pyval :=
  base ← self_base_url;
  let url := base +:+ ("people/" +:+ player_id +:+ "/stats") in
  let params : gmap string pyval := <["stats" := PStr "yearByYear"]> ∅ in
  _get_response_json url (Some params).

Definition get_teams (team_ids : option (list string))
    (show_roster show_expanded_roster show_upcoming_game
     show_previous_game show_stats : bool)
    (season : option string) (specific_stats : option (list string))
  : M pyval :=
  base ← self_base_url;
  let url := base +:+ "teams" in
  let expand_opts :=
    PList [PBool show_roster; PBool show_expanded_roster;
           PBool show_upcoming_game; PBool show_previous_game;
           PBool show_stats] in
  expand_param ← lift (py_filter_none expand_opts ≫= str_join ",");
  stats_param ← lift (py_filter_none (of_opt_list specific_stats)
                        ≫= str_join ",");
  let params : gmap string pyval := ∅ in
  let params := if truthy (PStr expand_param)
                then <["expand" := PStr expand_param]> params else params in
  let params := if truthy (PStr stats_param)
                then <["stats" := PStr stats_param]> params else params in
  let params := if truthy (of_opt_str season)
                then <["season" := of_opt_str season]> params else params in
  if truthy (of_opt_list team_ids) then
    let ids := default [] team_ids in
    if (1 <? length ids)%nat then
      _get_response_json url (Some (<["teamId" := of_opt_list team_ids]> params))
    else
      id0 ← lift (py_index ids 0);
      _get_response_json (url +:+ "/" +:+ id0) (Some params)
  else
    _get_response_json url (Some params).

Definition get_team_roster (team_id : string) : M pyval :=
  base ← self_base_url;
  let url := base +:+ ("teams/" +:+ team_id +:+ "/roster") in
  _get_response_json url None.

(** A call that binds a parameter without default: leaving it out raises
    [TypeError] before the body runs. *)
Definition required {A B} (f : A → M B) (a : actual A) : M B :=
  match a with
  | Given x => f x
  | Omitted => raise TypeError
  end.

(** The public operations, as a caller invokes them. *)
Inductive call : Type :=
| Call_get_conferences (conference_id : option string)
| Call_get_divisions (division_id : option string)
| Call_get_draft (year : option string)
| Call_get_franchises (franchise_id : option string)
| Call_get_player (player_id : actual string)
| Call_get_player_stats (player_id : actual string)
| Call_get_player_stats_for_season (player_id season : actual string)
| Call_get_player_stats_year_by_year (player_id : actual string)
| Call_get_teams (team_ids : option (list string))
    (show_roster show_expanded_roster show_upcoming_game
     show_previous_game show_stats : bool)
    (season : option string) (specific_stats : option (list string))
| Call_get_team_roster (team_id : actual string).

Definition run_call (c : call) : M pyval :=
  match c with
  | Call_get_conferences i => get_conferences i
  | Call_get_divisions i => get_divisions i
  | Call_get_draft y => get_draft y
  | Call_get_franchises i => get_franchises i
  | Call_get_player p => required get_player p
  | Call_get_player_stats p => required get_player_stats p
  | Call_get_player_stats_for_season p s =>
      required (fun p' => required (get_player_stats_for_season p') s) p
  | Call_get_player_stats_year_by_year p =>
      required get_player_stats_year_by_year p
  | Call_get_teams t r er ug pg st se sp => get_teams t r er ug pg st se sp
  | Call_get_team_roster t => required get_team_roster t
  end.

(** A caller making one call after another on the same client, going on
    whether a call returned or raised. *)
Fixpoint run_calls (cs : list call) (w : world) : world :=
  match cs with
  | [] => w
  | c :: cs' => run_calls cs' (run_call c w).1
  end.

End Client.

(** ** A canned transport and decoder *)

Definition mock_transport (status : Z) (body : string)
  : list request → request → string + response :=
  fun _ _ => inr (Response status body).

Definition down_transport : list request → request → string + response :=
  fun _ _ => inl "connection refused".

(** Decodes the three bodies used below and rejects every other text. *)
Definition mock_json_loads (s : string) : option pyval :=
  if String.eqb s "null" then Some PNone
  else if String.eqb s "{}" then Some (PDict [])
  else if String.eqb s "[1, true]" then Some (PList [PInt 1; PBool true])
  else None.

(** ** Vocabulary of the statements *)

(** The query parameters [get_teams] has built when it reaches the
    [team_ids] test with no flag set and [specific_stats] a list. *)
Definition teams_params (season : option string) (stats : list string)
  : gmap string pyval :=
  let stats_param :=
    String.concat "," (List.filter (fun s => truthy (PStr s)) stats) in
  let params : gmap string pyval := ∅ in
  let params := if truthy (PStr stats_param)
                then <["stats" := PStr stats_param]> params else params in
  if truthy (of_opt_str season)
  then <["season" := of_opt_str season]> params else params.

(** The resource paths of the API, and the shape of an endpoint URL: the
    base URL, a resource path, and an identifier segment that may be empty. *)
Definition resources : list string :=
  ["conferences"; "divisions"; "franchises"; "people"; "teams"].

Definition endpoint (base : string) (r : request) : Prop :=
  ∃ resource seg : string,
    resource ∈ resources ∧ req_url r = base +:+ resource +:+ seg.

(** A transport that answers as [transport] does, with every status code
    rewritten by [f]. *)
Definition restatus (f : Z → Z)
    (transport : list request → request → string + response)
  : list request → request → string + response :=
  fun history r =>
    match transport history r with
    | inl msg => inl msg
    | inr resp => inr (Response (f (status_code resp)) (text resp))
    end.

(** The outcome of a call that made its request and then dropped the
    decoded body. *)
Definition discard (x : world * result pyval) : world * result pyval :=
  (x.1, match x.2 with Ok _ => Ok PNone | Raise e => Raise e end).

Definition is_season_call (c : call) : bool :=
  match c with
  | Call_get_player_stats_for_season (Given _) (Given _) => true
  | _ => false
  end.

(** ** Properties *)

Lemma append_assoc (s1 s2 s3 : string) :
  (s1 +:+ s2) +:+ s3 = s1 +:+ s2 +:+ s3.
Proof.
  induction s1 as [|c s1 IH]; [reflexivity|].
  change (String c ((s1 +:+ s2) +:+ s3) = String c (s1 +:+ s2 +:+ s3)).
  by rewrite IH.
Qed.

Ltac run :=
  unfold mbind, M_bind, mret, M_ret, raise, lift, self_base_url; simpl.

Section Properties.

Variable transport : list request → request → string + response.
Variable json_loads : string → option pyval.

Abbreviation fetch := (_get_response_json transport json_loads).

(** What the shared helper does: it hands exactly one request to the
    transport, and its outcome is the transport failure, the decode
    failure or the decoded body. *)
Lemma _get_response_json_unfold url params w :
  fetch url params w =
  (World (self w) (sent w ++ [Request url params]),
   match transport (sent w) (Request url params) with
   | inl msg => Raise (RequestException msg)
   | inr resp =>
       match json_loads (text resp) with
       | Some v => Ok v
       | None => Raise JSONDecodeError
       end
   end).
Proof.
  unfold _get_response_json, requests_get, Response_json. run.
  destruct (transport _ _) as [msg|resp]; [done|].
  by destruct (json_loads _).
Qed.

Lemma get_conferences_eq conference_id w :
  get_conferences transport json_loads conference_id w =
  fetch (base_url (self w) +:+ "conferences" +:+
           (if truthy (of_opt_str conference_id)
            then "/" +:+ fstr conference_id else "")) None w.
Proof.
  unfold get_conferences. run.
  destruct (truthy _); simpl; rewrite ?append_assoc; done.
Qed.

Lemma get_divisions_eq division_id w :
  get_divisions transport json_loads division_id w =
  fetch (base_url (self w) +:+ "divisions" +:+
           (if truthy (of_opt_str division_id)
            then "/" +:+ fstr division_id else "")) None w.
Proof.
  unfold get_divisions. run.
  destruct (truthy _); simpl; rewrite ?append_assoc; done.
Qed.

Lemma get_franchises_eq franchise_id w :
  get_franchises transport json_loads franchise_id w =
  fetch (base_url (self w) +:+ "franchises" +:+
           (if truthy (of_opt_str franchise_id)
            then "/" +:+ fstr franchise_id else "")) None w.
Proof.
  unfold get_franchises. run.
  destruct (truthy _); simpl; rewrite ?append_assoc; done.
Qed.

Lemma get_player_eq player_id w :
  get_player transport json_loads player_id w =
  fetch (base_url (self w) +:+ "people" +:+ "/" +:+ player_id) None w.
Proof. reflexivity. Qed.

Lemma get_player_stats_eq player_id w :
  get_player_stats transport json_loads player_id w =
  fetch (base_url (self w) +:+ "people" +:+ "/" +:+ player_id +:+ "/stats")
    None w.
Proof. reflexivity. Qed.

Lemma get_player_stats_year_by_year_eq player_id w :
  get_player_stats_year_by_year transport json_loads player_id w =
  fetch (base_url (self w) +:+ "people" +:+ "/" +:+ player_id +:+ "/stats")
    (Some {[ "stats" := PStr "yearByYear" ]}) w.
Proof. reflexivity. Qed.

Lemma get_team_roster_eq team_id w :
  get_team_roster transport json_loads team_id w =
  fetch (base_url (self w) +:+ "teams" +:+ "/" +:+ team_id +:+ "/roster")
    None w.
Proof. reflexivity. Qed.

(** The season lookup makes the same request as its siblings but keeps
    only the failure of the helper: a decoded body becomes [None]. *)
Lemma get_player_stats_for_season_eq player_id season w :
  get_player_stats_for_season transport json_loads player_id season w =
  discard
    (fetch (base_url (self w) +:+ "people" +:+ "/" +:+ player_id +:+ "/stats")
       (Some (<["season" := PStr season]>
                {[ "stats" := PStr "statsSingleSeason" ]})) w).
Proof.
  unfold get_player_stats_for_season, discard. run.
  by destruct (fetch _ _ _) as [w' [v|e]].
Qed.

(** *** [get_teams] *)

Lemma str_items_filter_strs (l : list string) :
  str_items (List.filter truthy (PStr <$> l)) =
  Ok (List.filter (fun s => truthy (PStr s)) l).
Proof.
  induction l as [|s l IH]; [done|].
  destruct s as [|c s]; [exact IH|].
  change (str_items (PStr (String c s) :: List.filter truthy (PStr <$> l)) =
          Ok (String c s :: List.filter (fun s => truthy (PStr s)) l)).
  cbn [str_items]. by rewrite IH.
Qed.

Lemma str_items_filter_flags (flags : list bool) :
  str_items (List.filter truthy (PBool <$> flags)) =
  if forallb negb flags then Ok [] else Raise TypeError.
Proof. induction flags as [|[] flags IH]; [done|done|exact IH]. Qed.

(** Joining the truthy items of a list of strings drops the empty ones. *)
Lemma join_filter_strs (sep : string) (l : list string) :
  py_filter_none (PList (PStr <$> l)) ≫= str_join sep =
  Ok (String.concat sep (List.filter (fun s => truthy (PStr s)) l)).
Proof.
  unfold py_filter_none, str_join, py_iter, mbind, result_bind, mret,
    result_ret.
  by rewrite str_items_filter_strs.
Qed.

(** Joining the truthy items of the flag list: the empty string when no
    flag is set, a [TypeError] as soon as one is, since the item that
    survives the filter is the boolean itself. *)
Lemma join_filter_flags (sep : string) (flags : list bool) :
  py_filter_none (PList (PBool <$> flags)) ≫= str_join sep =
  if forallb negb flags then Ok "" else Raise TypeError.
Proof.
  unfold py_filter_none, str_join, py_iter, mbind, result_bind, mret,
    result_ret.
  rewrite str_items_filter_flags. by destruct (forallb _ _).
Qed.

Lemma teams_params_lookup season stats (k : string) :
  k ≠ "stats" → k ≠ "season" → teams_params season stats !! k = None.
Proof.
  intros Hst Hse. unfold teams_params.
  repeat case_match; by simplify_map_eq.
Qed.

Lemma get_teams_flag_set team_ids r er ug pg st season specific_stats w :
  r || er || ug || pg || st = true →
  get_teams transport json_loads team_ids r er ug pg st season
    specific_stats w = (w, Raise TypeError).
Proof.
  intros Hflag.
  destruct r, er, ug, pg, st; try discriminate Hflag; reflexivity.
Qed.

Lemma get_teams_stats_None team_ids season w :
  get_teams transport json_loads team_ids false false false false false
    season None w = (w, Raise TypeError).
Proof. reflexivity. Qed.

Lemma get_teams_plain team_ids season stats w :
  get_teams transport json_loads team_ids false false false false false
    season (Some stats) w =
  match team_ids with
  | Some (id1 :: id2 :: ids) =>
      fetch (base_url (self w) +:+ "teams")
        (Some (<["teamId" := PList (PStr <$> id1 :: id2 :: ids)]>
                 (teams_params season stats))) w
  | Some [id1] =>
      fetch (base_url (self w) +:+ "teams" +:+ "/" +:+ id1)
        (Some (teams_params season stats)) w
  | Some [] | None =>
      fetch (base_url (self w) +:+ "teams")
        (Some (teams_params season stats)) w
  end.
Proof.
  unfold get_teams. cbn [of_opt_list]. rewrite join_filter_strs. run.
  destruct team_ids as [[|id1 [|id2 ids]]|]; simpl;
    rewrite ?append_assoc; done.
Qed.

(** *** Every call: what it raises, what it requests *)

(** A call either raises before any request, leaving the state as it
    was, or makes one request to an endpoint of the API through the shared
    helper; only the season lookup then drops the decoded body. *)
Lemma run_call_cases (c : call) (w : world) :
  (∃ e, run_call transport json_loads c w = (w, Raise e)) ∨
  (∃ (resource seg : string) params,
      resource ∈ resources ∧
      let x := fetch (base_url (self w) +:+ resource +:+ seg) params w in
      if is_season_call c
      then run_call transport json_loads c w = discard x
      else run_call transport json_loads c w = x).
Proof.
  assert (∀ r : string, r ∈ resources ↔
            r = "conferences" ∨ r = "divisions" ∨ r = "franchises" ∨
            r = "people" ∨ r = "teams") as Hres.
  { intros r. unfold resources. rewrite !elem_of_cons, elem_of_nil. tauto. }
  destruct c as [i|i|y|i|[|p]|[|p]|[|p] [|se]|[|p]|t r er ug pg st se sp|[|t]];
    simpl; try (left; eexists; reflexivity).
  - right. exists "conferences". eexists. eexists.
    split; [apply Hres; tauto|]. cbv zeta. apply get_conferences_eq.
  - right. exists "divisions". eexists. eexists.
    split; [apply Hres; tauto|]. cbv zeta. apply get_divisions_eq.
  - right. exists "franchises". eexists. eexists.
    split; [apply Hres; tauto|]. cbv zeta. apply get_franchises_eq.
  - right. exists "people". eexists. eexists.
    split; [apply Hres; tauto|]. cbv zeta. apply get_player_eq.
  - right. exists "people". eexists. eexists.
    split; [apply Hres; tauto|]. cbv zeta. apply get_player_stats_eq.
  - right. exists "people". eexists. eexists.
    split; [apply Hres; tauto|]. cbv zeta.
    apply get_player_stats_for_season_eq.
  - right. exists "people". eexists. eexists.
    split; [apply Hres; tauto|]. cbv zeta.
    apply get_player_stats_year_by_year_eq.
  - destruct (r || er || ug || pg || st) eqn:Hflag.
    { left. eexists. by apply get_teams_flag_set. }
    destruct r, er, ug, pg, st; try discriminate Hflag.
    destruct sp as [stats|]; [|left; eexists; apply get_teams_stats_None].
    right. exists "teams".
    destruct t as [[|id1 [|id2 ids]]|].
    + exists "". eexists. split; [apply Hres; tauto|]. cbv zeta.
      by rewrite get_teams_plain.
    + exists ("/" +:+ id1). eexists. split; [apply Hres; tauto|]. cbv zeta.
      by rewrite get_teams_plain.
    + exists "". eexists. split; [apply Hres; tauto|]. cbv zeta.
      by rewrite get_teams_plain.
    + exists "". eexists. split; [apply Hres; tauto|]. cbv zeta.
      by rewrite get_teams_plain.
  - right. exists "teams". eexists. eexists.
    split; [apply Hres; tauto|]. cbv zeta. apply get_team_roster_eq.
Qed.

(** One call leaves the client object alone and adds at most one request,
    to an endpoint under the client's base URL. *)
Lemma run_call_step (c : call) (w : world) :
  self (run_call transport json_loads c w).1 = self w ∧
  (sent (run_call transport json_loads c w).1 = sent w ∨
   ∃ r, endpoint (base_url (self w)) r ∧
        sent (run_call transport json_loads c w).1 = sent w ++ [r]).
Proof.
  destruct (run_call_cases c w) as [[e ->]|(resource & seg & params & Hin & H)].
  { simpl. auto. }
  cbv zeta in H. rewrite _get_response_json_unfold in H.
  assert ((run_call transport json_loads c w).1 =
          World (self w)
            (sent w ++ [Request (base_url (self w) +:+ resource +:+ seg) params]))
    as ->.
  { by destruct (is_season_call c); rewrite H. }
  simpl. split; [done|]. right. eexists. split; [|done].
  by exists resource, seg.
Qed.

Lemma run_calls_invariant (cs : list call) (w : world) :
  Forall (endpoint (base_url (self w))) (sent w) →
  self (run_calls transport json_loads cs w) = self w ∧
  Forall (endpoint (base_url (self w)))
    (sent (run_calls transport json_loads cs w)).
Proof.
  revert w. induction cs as [|c cs IH]; intros w Hw; [done|].
  simpl. destruct (run_call_step c w) as [Hself Hsent].
  destruct (IH (run_call transport json_loads c w).1) as [IH1 IH2].
  { rewrite Hself. destruct Hsent as [->|(r & Hr & ->)]; [done|].
    apply Forall_app. split; [done|]. by apply Forall_singleton. }
  rewrite IH1, <- Hself. done.
Qed.

(** X6: apart from the season lookup, a call that returns a value has
    made one request and returns the body the transport answered it with,
    as decoded. *)
Lemma run_call_passthrough (c : call) (w w' : world) (v : pyval) :
  is_season_call c = false →
  run_call transport json_loads c w = (w', Ok v) →
  ∃ r resp, sent w' = sent w ++ [r] ∧
            transport (sent w) r = inr resp ∧
            json_loads (text resp) = Some v.
Proof.
  intros Hc Hrun.
  destruct (run_call_cases c w) as [[e He]|(resource & seg & params & _ & H)].
  { congruence. }
  rewrite Hc in H. cbv zeta in H.
  rewrite _get_response_json_unfold, Hrun in H.
  injection H as Hw Hv. subst w'.
  exists (Request (base_url (self w) +:+ resource +:+ seg) params).
  destruct (transport _ _) as [msg|resp]; [done|].
  exists resp. destruct (json_loads _) as [v'|]; [|done].
  by injection Hv as ->.
Qed.

(** *** The claims that hold of every transport *)

(** C4: [get_draft] raises [NotImplementedError] for every [year],
    [None] included, and leaves the request log as it was: no request is
    made. *)
Theorem get_draft_unsupported (year : option string) (w : world) :
  get_draft year w = (w, Raise NotImplementedError) ∧
  run_call transport json_loads (Call_get_draft year) w =
    (w, Raise NotImplementedError).
Proof. done. Qed.

(** The helper never looks at the status code.  Whatever the status
    of the response, 4xx and 5xx included, when the body decodes to [v]
    the helper returns [v], having made that one request. *)
Theorem status_not_inspected (url : string)
    (params : option (gmap string pyval)) (w : world)
    (resp : response) (v : pyval) :
  transport (sent w) (Request url params) = inr resp →
  json_loads (text resp) = Some v →
  fetch url params w =
    (World (self w) (sent w ++ [Request url params]), Ok v).
Proof.
  intros Hresp Hv. by rewrite _get_response_json_unfold, Hresp, Hv.
Qed.

(** C8: with a conference identifier that is not empty the request goes
    to the base URL followed by [conferences/<id>]; without one, to the
    base URL followed by [conferences].  One request either way, with no
    query parameters. *)
Theorem get_conferences_url (id : string) (w : world) :
  id ≠ "" →
  sent (get_conferences transport json_loads (Some id) w).1 =
    sent w ++ [Request (base_url (self w) +:+ "conferences" +:+ "/" +:+ id)
                 None] ∧
  sent (get_conferences transport json_loads None w).1 =
    sent w ++ [Request (base_url (self w) +:+ "conferences") None].
Proof.
  intros Hid. rewrite !get_conferences_eq, !_get_response_json_unfold.
  destruct id as [|c id]; done.
Qed.

(** C9: after any sequence of calls on a freshly constructed client the
    base URL is the one [__init__] assigned, and every request made went
    to that base URL followed by a resource path and a segment. *)
Theorem base_url_invariant (cs : list call) :
  base_url (self (run_calls transport json_loads cs init_world)) =
    "https://statsapi.web.nhl.com/api/v1/" ∧
  self (run_calls transport json_loads cs init_world) = Client_init ∧
  Forall (endpoint (base_url Client_init))
    (sent (run_calls transport json_loads cs init_world)).
Proof.
  destruct (run_calls_invariant cs init_world) as [Hself Hsent]; [done|].
  by rewrite Hself.
Qed.

(** C10: with [specific_stats] left at [None], [get_teams] raises
    [TypeError] whatever its other arguments, and the request log is as it
    was: nothing reached the transport. *)
Theorem get_teams_default_stats_raises (team_ids : option (list string))
    (show_roster show_expanded_roster show_upcoming_game show_previous_game
     show_stats : bool) (season : option string) (w : world) :
  get_teams transport json_loads team_ids show_roster show_expanded_roster
    show_upcoming_game show_previous_game show_stats season None w =
  (w, Raise TypeError).
Proof.
  destruct show_roster, show_expanded_roster, show_upcoming_game,
    show_previous_game, show_stats; reflexivity.
Qed.

(** C3, as amended: leaving the identifier out raises [TypeError]
    before any request; an identifier that is given is not validated, and
    the call makes one request to the base URL followed by [people/<id>],
    returning what the helper returns. The empty identifier is requested
    as [people/]. *)
Theorem get_player_unvalidated (w : world) :
  run_call transport json_loads (Call_get_player Omitted) w =
    (w, Raise TypeError) ∧
  ∀ player_id : string,
    run_call transport json_loads (Call_get_player (Given player_id)) w =
      fetch (base_url (self w) +:+ "people/" +:+ player_id) None w ∧
    sent (run_call transport json_loads (Call_get_player (Given player_id))
            w).1 =
      sent w ++ [Request (base_url (self w) +:+ "people/" +:+ player_id) None].
Proof.
  split; [reflexivity|]. intros player_id. split; [reflexivity|].
  change (run_call transport json_loads (Call_get_player (Given player_id)) w)
    with (get_player transport json_loads player_id w).
  by rewrite get_player_eq, _get_response_json_unfold.
Qed.

(** *** Where the code departs from its documentation *)

(** C1: with [show_roster] and [show_stats] set, [get_teams] raises
    [TypeError] whatever its other arguments, [specific_stats] a list or
    not, and makes no request: the two [True] items that survive the
    filter are booleans, which [join] rejects. No [expand] parameter is
    ever sent. *)
Theorem get_teams_roster_stats_raises (team_ids : option (list string))
    (season : option string) (specific_stats : option (list string))
    (w : world) :
  get_teams transport json_loads team_ids true false false false true
    season specific_stats w = (w, Raise TypeError).
Proof. reflexivity. Qed.

(** C5: the two calls of the claim, with every other argument at its
    default, raise [TypeError] and make no request: [specific_stats] is
    [None] and cannot be filtered. *)
Theorem get_teams_by_ids_raises (w : world) :
  get_teams transport json_loads (Some ["1"; "2"])
    false false false false false None None w = (w, Raise TypeError) ∧
  get_teams transport json_loads (Some ["1"])
    false false false false false None None w = (w, Raise TypeError).
Proof. split; reflexivity. Qed.

(** With no flag set and [specific_stats] a list, the one request made
    carries no [expand] parameter. *)
Lemma get_teams_no_flags_no_expand (team_ids : option (list string))
    (season : option string) (stats : list string) (w : world) :
  ∃ r, sent (get_teams transport json_loads team_ids
               false false false false false season (Some stats) w).1 =
         sent w ++ [r] ∧
       (req_params r ≫= lookup "expand") = None.
Proof.
  rewrite get_teams_plain.
  destruct team_ids as [[|id1 [|id2 ids]]|]; rewrite _get_response_json_unfold;
    eexists; (split; [reflexivity|]); simpl;
    rewrite ?lookup_insert_ne by done; by apply teams_params_lookup.
Qed.

(** X15: once [specific_stats] is a list and no flag is set, the team
    ids are routed as documented: several ids go into the [teamId]
    parameter and the path stays [teams]; a single id goes into the path
    and no [teamId] parameter is sent. *)
Lemma get_teams_routing (ids : list string) (season : option string)
    (stats : list string) (w : world) :
  ∃ r, sent (get_teams transport json_loads (Some ids)
               false false false false false season (Some stats) w).1 =
         sent w ++ [r] ∧
       match ids with
       | _ :: _ :: _ =>
           req_url r = base_url (self w) +:+ "teams" ∧
           (req_params r ≫= lookup "teamId") = Some (PList (PStr <$> ids))
       | [id1] =>
           req_url r = base_url (self w) +:+ "teams" +:+ "/" +:+ id1 ∧
           (req_params r ≫= lookup "teamId") = None
       | [] =>
           req_url r = base_url (self w) +:+ "teams" ∧
           (req_params r ≫= lookup "teamId") = None
       end.
Proof.
  rewrite get_teams_plain.
  destruct ids as [|id1 [|id2 ids]]; rewrite _get_response_json_unfold;
    eexists; (split; [reflexivity|]); simpl; split; try reflexivity.
  - by apply teams_params_lookup.
  - by apply teams_params_lookup.
  - apply lookup_insert_eq.
Qed.

End Properties.

(** The status code of a response has no bearing on any call. *)
Lemma _get_response_json_restatus (f : Z → Z) transport json_loads url params w :
  _get_response_json (restatus f transport) json_loads url params w =
  _get_response_json transport json_loads url params w.
Proof.
  rewrite !_get_response_json_unfold. unfold restatus.
  by destruct (transport _ _).
Qed.

(** X5: no public operation looks at a status code: rewriting the
    status of every response leaves the outcome of every call, and the
    state after it, as they were. *)
Lemma run_call_restatus (f : Z → Z) transport json_loads c w :
  run_call (restatus f transport) json_loads c w =
  run_call transport json_loads c w.
Proof.
  destruct c as [i|i|y|i|[|p]|[|p]|[|p] [|se]|[|p]|t r er ug pg st se sp|[|t]];
    simpl; try reflexivity.
  - by rewrite !get_conferences_eq, _get_response_json_restatus.
  - by rewrite !get_divisions_eq, _get_response_json_restatus.
  - by rewrite !get_franchises_eq, _get_response_json_restatus.
  - by rewrite !get_player_eq, _get_response_json_restatus.
  - by rewrite !get_player_stats_eq, _get_response_json_restatus.
  - by rewrite !get_player_stats_for_season_eq, _get_response_json_restatus.
  - by rewrite !get_player_stats_year_by_year_eq, _get_response_json_restatus.
  - destruct (r || er || ug || pg || st) eqn:Hflag.
    { by rewrite !get_teams_flag_set. }
    destruct r, er, ug, pg, st; try discriminate Hflag.
    destruct sp as [stats|]; [|reflexivity].
    rewrite !get_teams_plain.
    destruct t as [[|id1 [|id2 ids]]|]; apply _get_response_json_restatus.
  - by rewrite !get_team_roster_eq, _get_response_json_restatus.
Qed.

(** *** The claims at concrete inputs *)

(** C2: against a transport whose body decodes to [[1, True]], the
    season lookup makes the documented request (the [stats] and [season]
    parameters, to [people/8471214/stats]) and then returns [None]; the
    helper, on the same request, returned the decoded body. *)
Theorem get_player_stats_for_season_returns_None :
  get_player_stats_for_season (mock_transport 200 "[1, true]") mock_json_loads
    "8471214" "20212022" init_world =
  (World Client_init
     [Request "https://statsapi.web.nhl.com/api/v1/people/8471214/stats"
        (Some (<["season" := PStr "20212022"]>
                 {[ "stats" := PStr "statsSingleSeason" ]}))],
   Ok PNone) ∧
  (_get_response_json (mock_transport 200 "[1, true]") mock_json_loads
     "https://statsapi.web.nhl.com/api/v1/people/8471214/stats"
     (Some (<["season" := PStr "20212022"]>
              {[ "stats" := PStr "statsSingleSeason" ]})) init_world).2 =
  Ok (PList [PInt 1; PBool true]).
Proof. split; reflexivity. Qed.

(** C6: the body [[1, True]] that the transport answered with does not
    come back from the season lookup, which completes and returns [None]. *)
Theorem season_body_not_passed_through :
  mock_json_loads (text (Response 200 "[1, true]")) =
    Some (PList [PInt 1; PBool true]) ∧
  (run_call (mock_transport 200 "[1, true]") mock_json_loads
     (Call_get_player_stats_for_season (Given "8471214") (Given "20212022"))
     init_world).2 = Ok PNone.
Proof. split; reflexivity. Qed.

(** C7: the client does not look at the status code, and at a 503
    response whose body decodes to the empty JSON object the player
    statistics lookup returns that object as a success. The season lookup,
    answered with the same response, completes as a success too but does
    not hand the decoded body to its caller: it returns [None]. *)
Theorem season_lookup_at_503_drops_body :
  mock_transport 503 "{}" (sent init_world)
    (Request "https://statsapi.web.nhl.com/api/v1/people/8471214/stats"
       (Some (<["season" := PStr "20212022"]>
                {[ "stats" := PStr "statsSingleSeason" ]}))) =
    inr (Response 503 "{}") ∧
  mock_json_loads (text (Response 503 "{}")) = Some (PDict []) ∧
  run_call (mock_transport 503 "{}") mock_json_loads
    (Call_get_player_stats_for_season (Given "8471214") (Given "20212022"))
    init_world =
  (World Client_init
     [Request "https://statsapi.web.nhl.com/api/v1/people/8471214/stats"
        (Some (<["season" := PStr "20212022"]>
                 {[ "stats" := PStr "statsSingleSeason" ]}))],
   Ok PNone) ∧
  run_call (mock_transport 503 "{}") mock_json_loads
    (Call_get_player_stats (Given "8471214")) init_world =
  (World Client_init
     [Request "https://statsapi.web.nhl.com/api/v1/people/8471214/stats" None],
   Ok (PDict [])).
Proof. repeat split; reflexivity. Qed.

(** C3, as stated, fails: [get_player("")] is not rejected. It makes a
    request to [people/] and returns the decoded body. *)
Lemma get_player_empty_not_rejected :
  run_call (mock_transport 200 "{}") mock_json_loads
    (Call_get_player (Given "")) init_world =
  (World Client_init
     [Request "https://statsapi.web.nhl.com/api/v1/people/" None],
   Ok (PDict [])) ∧
  ¬ ∃ e, run_call (mock_transport 200 "{}") mock_json_loads
           (Call_get_player (Given "")) init_world = (init_world, Raise e).
Proof. split; [reflexivity|]. intros [e He]. discriminate He. Qed.

(** The helper at a 503 response whose body is the empty JSON object. *)
Lemma status_not_inspected_witness :
  mock_transport 503 "{}" (sent init_world)
    (Request "https://statsapi.web.nhl.com/api/v1/teams/1/roster" None) =
    inr (Response 503 "{}") ∧
  mock_json_loads (text (Response 503 "{}")) = Some (PDict []) ∧
  _get_response_json (mock_transport 503 "{}") mock_json_loads
    "https://statsapi.web.nhl.com/api/v1/teams/1/roster" None init_world =
  (World Client_init
     [Request "https://statsapi.web.nhl.com/api/v1/teams/1/roster" None],
   Ok (PDict [])).
Proof.
  split; [reflexivity|]. split; [reflexivity|].
  apply (status_not_inspected (mock_transport 503 "{}") mock_json_loads
           "https://statsapi.web.nhl.com/api/v1/teams/1/roster" None
           init_world (Response 503 "{}") (PDict [])); reflexivity.
Defined.

(** C8 at conference 6, on a network that is down: the requests are
    made to the two URLs all the same. *)
Lemma get_conferences_url_witness :
  "6" ≠ "" ∧
  sent (get_conferences down_transport mock_json_loads (Some "6")
          init_world).1 =
    [Request "https://statsapi.web.nhl.com/api/v1/conferences/6" None] ∧
  sent (get_conferences down_transport mock_json_loads None init_world).1 =
    [Request "https://statsapi.web.nhl.com/api/v1/conferences" None].
Proof.
  split; [discriminate|].
  apply (get_conferences_url down_transport mock_json_loads "6" init_world).
  discriminate.
Defined.

(** ** Further properties of the client *)

Section Outcomes.

Variable transport : list request → request → string + response.
Variable json_loads : string → option pyval.

(** The three shapes a call can take: it raises [TypeError] or
    [NotImplementedError] with the state untouched, or it is the shared
    helper on some request, with the body dropped by the season lookup. *)
Lemma run_call_shape (c : call) (w : world) :
  run_call transport json_loads c w = (w, Raise TypeError) ∨
  run_call transport json_loads c w = (w, Raise NotImplementedError) ∨
  ∃ url params,
    run_call transport json_loads c w =
      if is_season_call c
      then discard (_get_response_json transport json_loads url params w)
      else _get_response_json transport json_loads url params w.
Proof.
  destruct c as [i|i|y|i|[|p]|[|p]|[|p] [|se]|[|p]|t r er ug pg st se sp|[|t]];
    simpl; auto.
  - right; right. eexists _, _. apply get_conferences_eq.
  - right; right. eexists _, _. apply get_divisions_eq.
  - right; right. eexists _, _. apply get_franchises_eq.
  - right; right. eexists _, _. apply get_player_eq.
  - right; right. eexists _, _. apply get_player_stats_eq.
  - right; right. eexists _, _. apply get_player_stats_for_season_eq.
  - right; right. eexists _, _. apply get_player_stats_year_by_year_eq.
  - destruct (r || er || ug || pg || st) eqn:Hflag.
    { left. by apply get_teams_flag_set. }
    destruct r, er, ug, pg, st; try discriminate Hflag.
    destruct sp as [stats|]; [|left; apply get_teams_stats_None].
    right; right. rewrite get_teams_plain.
    destruct t as [[|id1 [|id2 ids]]|]; by eexists _, _.
  - right; right. eexists _, _. apply get_team_roster_eq.
Qed.

(** X7: the outcomes of a call, by what reached the network.  A value, a
    [RequestException] or a [JSONDecodeError] comes with exactly one request
    added to the log; a [TypeError] or a [NotImplementedError] comes with
    the state as it was; an [IndexError] is never raised, since
    [team_ids[0]] is only read from a list that is not empty. *)
Theorem run_call_outcomes (c : call) (w : world) :
  match (run_call transport json_loads c w).2 with
  | Ok _ | Raise (RequestException _) | Raise JSONDecodeError =>
      ∃ r, (run_call transport json_loads c w).1 =
             World (self w) (sent w ++ [r])
  | Raise TypeError | Raise NotImplementedError =>
      (run_call transport json_loads c w).1 = w
  | Raise IndexError => False
  end.
Proof.
  destruct (run_call_shape c w) as [->|[->|(url & params & ->)]]; [done..|].
  rewrite _get_response_json_unfold.
  destruct (is_season_call c); unfold discard; simpl;
    destruct (transport _ _) as [msg|resp]; [by eexists| |by eexists|];
    destruct (json_loads _); by eexists.
Qed.

(** X8: once a call has made its request [r], its outcome is read off
    the transport's answer to [r]: the transport's failure is raised as a
    [RequestException] with the same message, an undecodable body as a
    [JSONDecodeError], and a decoded body is returned ([None] in its place
    by the season lookup). Nothing is retried or recovered. *)
Theorem run_call_outcome_of_answer (c : call) (w : world) (r : request) :
  sent (run_call transport json_loads c w).1 = sent w ++ [r] →
  (run_call transport json_loads c w).2 =
    match transport (sent w) r with
    | inl msg => Raise (RequestException msg)
    | inr resp =>
        match json_loads (text resp) with
        | None => Raise JSONDecodeError
        | Some v => Ok (if is_season_call c then PNone else v)
        end
    end.
Proof.
  destruct (run_call_shape c w) as [->|[->|(url & params & ->)]]; simpl.
  - intros H. apply (f_equal length) in H. rewrite length_app in H.
    simpl in H. lia.
  - intros H. apply (f_equal length) in H. rewrite length_app in H.
    simpl in H. lia.
  - rewrite _get_response_json_unfold.
    destruct (is_season_call c); unfold discard; simpl; intros H;
      apply app_inv_head in H; injection H as <-;
      destruct (transport _ _) as [msg|resp]; try done;
      by destruct (json_loads _).
Qed.

(** X9: calls never retry and never rewrite history: after a sequence of
    calls the log starts with what it held before, and has grown by at
    most one request per call. *)
Theorem run_calls_request_count (cs : list call) (w : world) :
  sent w `prefix_of` sent (run_calls transport json_loads cs w) ∧
  (length (sent (run_calls transport json_loads cs w)) ≤
     length (sent w) + length cs)%nat.
Proof.
  revert w. induction cs as [|c cs IH]; intros w; simpl.
  { split; [done|lia]. }
  destruct (IH (run_call transport json_loads c w).1) as [Hpre Hlen].
  destruct (run_call_step transport json_loads c w) as [_ [Hs|(r & _ & Hs)]];
    rewrite Hs in Hpre, Hlen.
  - split; [done|lia].
  - split.
    + etrans; [|exact Hpre]. by apply prefix_app_r.
    + rewrite length_app in Hlen. simpl in Hlen. lia.
Qed.

End Outcomes.

Section Requests.

Variable transport : list request → request → string + response.
Variable json_loads : string → option pyval.

(** X1: for the three listings an empty identifier is no identifier:
    passing the empty string behaves in every respect as passing nothing,
    and the whole collection is requested. *)
Theorem empty_id_is_no_id (w : world) :
  get_conferences transport json_loads (Some "") w =
    get_conferences transport json_loads None w ∧
  get_divisions transport json_loads (Some "") w =
    get_divisions transport json_loads None w ∧
  get_franchises transport json_loads (Some "") w =
    get_franchises transport json_loads None w.
Proof. done. Qed.

(** X2: [get_divisions] makes one request without parameters, to the
    base URL followed by [divisions/<id>] for an identifier that is not
    empty and by [divisions] when there is none. *)
Theorem get_divisions_url (id : string) (w : world) :
  id ≠ "" →
  sent (get_divisions transport json_loads (Some id) w).1 =
    sent w ++ [Request (base_url (self w) +:+ "divisions" +:+ "/" +:+ id)
                 None] ∧
  sent (get_divisions transport json_loads None w).1 =
    sent w ++ [Request (base_url (self w) +:+ "divisions") None].
Proof.
  intros Hid. rewrite !get_divisions_eq, !_get_response_json_unfold.
  destruct id as [|c id]; done.
Qed.

(** X3: [get_franchises] makes one request without parameters, to the
    base URL followed by [franchises/<id>] for an identifier that is not
    empty and by [franchises] when there is none. *)
Theorem get_franchises_url (id : string) (w : world) :
  id ≠ "" →
  sent (get_franchises transport json_loads (Some id) w).1 =
    sent w ++ [Request (base_url (self w) +:+ "franchises" +:+ "/" +:+ id)
                 None] ∧
  sent (get_franchises transport json_loads None w).1 =
    sent w ++ [Request (base_url (self w) +:+ "franchises") None].
Proof.
  intros Hid. rewrite !get_franchises_eq, !_get_response_json_unfold.
  destruct id as [|c id]; done.
Qed.

(** X4: identifiers are spliced into the path as they are, with no
    escaping: a player identifier that ends in [/stats] turns
    [get_player] into [get_player_stats], request and outcome alike. *)
Theorem identifier_spliced_verbatim (player_id : string) (w : world) :
  get_player transport json_loads (player_id +:+ "/stats") w =
  get_player_stats transport json_loads player_id w.
Proof. reflexivity. Qed.

(** X17: the three player statistics lookups request the same URL, the
    base URL followed by [people/<id>/stats], and differ in the query
    parameters only: none, [stats=yearByYear] alone, and
    [stats=statsSingleSeason] with the season, which is sent as given even
    when it is empty. *)
Theorem player_stats_requests (player_id season : string) (w : world) :
  sent (get_player_stats transport json_loads player_id w).1 =
    sent w ++
      [Request (base_url (self w) +:+ "people/" +:+ player_id +:+ "/stats")
         None] ∧
  sent (get_player_stats_year_by_year transport json_loads player_id w).1 =
    sent w ++
      [Request (base_url (self w) +:+ "people/" +:+ player_id +:+ "/stats")
         (Some {[ "stats" := PStr "yearByYear" ]})] ∧
  sent (get_player_stats_for_season transport json_loads player_id season
          w).1 =
    sent w ++
      [Request (base_url (self w) +:+ "people/" +:+ player_id +:+ "/stats")
         (Some (<["season" := PStr season]>
                  {[ "stats" := PStr "statsSingleSeason" ]}))].
Proof.
  rewrite get_player_stats_eq, get_player_stats_year_by_year_eq,
    get_player_stats_for_season_eq; unfold discard;
    rewrite !_get_response_json_unfold.
  done.
Qed.

End Requests.

Section Teams.

Local Set Warnings "-clear-no-such-hyp".

Variable transport : list request → request → string + response.
Variable json_loads : string → option pyval.

Lemma filter_head_truthy (stats : list string) :
  match List.filter (fun s => truthy (PStr s)) stats with
  | [] => True
  | s :: _ => truthy (PStr s) = true
  end.
Proof.
  induction stats as [|s stats IH]; [done|].
  simpl. by destruct s.
Qed.

Lemma teams_params_stats (season : option string) (stats : list string) :
  teams_params season stats !! "stats" =
  match List.filter (fun s => truthy (PStr s)) stats with
  | [] => None
  | l => Some (PStr (String.concat "," l))
  end.
Proof.
  unfold teams_params. pose proof (filter_head_truthy stats) as Hhd.
  destruct (List.filter _ stats) as [|s l].
  { simpl. by destruct season as [[|c se]|]. }
  assert (truthy (PStr (String.concat "," (s :: l))) = true) as ->.
  { destruct s as [|c s]; [done|]. by destruct l. }
  destruct (truthy (of_opt_str season));
    rewrite ?lookup_insert_ne by done; apply lookup_insert_eq.
Qed.

Lemma teams_params_season (season : option string) (stats : list string) :
  teams_params season stats !! "season" =
  match season with
  | Some (String c s) => Some (PStr (String c s))
  | Some EmptyString | None => None
  end.
Proof.
  unfold teams_params.
  destruct season as [[|c s]|]; simpl; rewrite ?lookup_insert_eq; try done;
    by case_match; rewrite ?lookup_insert_ne by done.
Qed.

Lemma teams_params_dom (season : option string) (stats : list string) :
  dom (teams_params season stats) ⊆ ({["stats"; "season"]} : gset string).
Proof.
  unfold teams_params.
  repeat case_match; rewrite ?dom_insert_L, ?dom_empty_L; set_solver.
Qed.


(** X12: the [stats] parameter is the list [specific_stats] with its
    empty names dropped, joined by commas; when no name is left no
    [stats] parameter is sent. *)
Theorem get_teams_stats_param (team_ids : option (list string))
    (season : option string) (stats : list string) (w : world) :
  ∃ r, sent (get_teams transport json_loads team_ids
               false false false false false season (Some stats) w).1 =
         sent w ++ [r] ∧
       (req_params r ≫= lookup "stats") =
         match List.filter (fun s => truthy (PStr s)) stats with
         | [] => None
         | l => Some (PStr (String.concat "," l))
         end.
Proof.
  rewrite get_teams_plain.
  destruct team_ids as [[|id1 [|id2 ids]]|]; rewrite _get_response_json_unfold;
    eexists; (split; [reflexivity|]); simpl;
    rewrite ?lookup_insert_ne by done; apply teams_params_stats.
Qed.

(** X13: the [season] parameter is sent as given when a season that is
    not empty is passed, and not at all for an empty or missing one. *)
Theorem get_teams_season_param (team_ids : option (list string))
    (season : option string) (stats : list string) (w : world) :
  ∃ r, sent (get_teams transport json_loads team_ids
               false false false false false season (Some stats) w).1 =
         sent w ++ [r] ∧
       (req_params r ≫= lookup "season") =
         match season with
         | Some (String c s) => Some (PStr (String c s))
         | Some EmptyString | None => None
         end.
Proof.
  rewrite get_teams_plain.
  destruct team_ids as [[|id1 [|id2 ids]]|]; rewrite _get_response_json_unfold;
    eexists; (split; [reflexivity|]); simpl;
    rewrite ?lookup_insert_ne by done; apply teams_params_season.
Qed.

(** X14: whatever its arguments, [get_teams] either sends nothing or
    sends one request whose parameters are among [stats], [season] and
    [teamId]. An [expand] parameter is never sent. *)
Theorem get_teams_param_keys (team_ids : option (list string))
    (show_roster show_expanded_roster show_upcoming_game show_previous_game
     show_stats : bool) (season : option string)
    (specific_stats : option (list string)) (w : world) :
  sent (get_teams transport json_loads team_ids show_roster
          show_expanded_roster show_upcoming_game show_previous_game
          show_stats season specific_stats w).1 = sent w ∨
  ∃ url params,
    sent (get_teams transport json_loads team_ids show_roster
            show_expanded_roster show_upcoming_game show_previous_game
            show_stats season specific_stats w).1 =
      sent w ++ [Request url (Some params)] ∧
    dom params ⊆ ({["stats"; "season"; "teamId"]} : gset string) ∧
    params !! "expand" = None.
Proof.
  destruct (show_roster || show_expanded_roster || show_upcoming_game ||
            show_previous_game || show_stats) eqn:Hflag.
  { left. by rewrite get_teams_flag_set. }
  destruct show_roster, show_expanded_roster, show_upcoming_game,
    show_previous_game, show_stats; try discriminate Hflag.
  destruct specific_stats as [stats|]; [|by left].
  right. rewrite get_teams_plain.
  pose proof (teams_params_dom season stats) as Hdom.
  assert (teams_params season stats !! "expand" = None) as Hexp.
  { by apply teams_params_lookup. }
  destruct team_ids as [[|id1 [|id2 ids]]|]; rewrite _get_response_json_unfold;
    eexists _, _; (split; [reflexivity|]);
    rewrite ?dom_insert_L, ?lookup_insert_ne by done;
    (split; [set_solver|done]).
Qed.

(** X16: an empty list of team ids is no list, and an empty season is no
    season: either behaves in every respect as leaving the argument out. *)
Theorem get_teams_empty_as_absent (team_ids : option (list string))
    (show_roster show_expanded_roster show_upcoming_game show_previous_game
     show_stats : bool) (season : option string)
    (specific_stats : option (list string)) (w : world) :
  get_teams transport json_loads (Some []) show_roster show_expanded_roster
    show_upcoming_game show_previous_game show_stats season specific_stats w =
  get_teams transport json_loads None show_roster show_expanded_roster
    show_upcoming_game show_previous_game show_stats season specific_stats w ∧
  get_teams transport json_loads team_ids show_roster show_expanded_roster
    show_upcoming_game show_previous_game show_stats (Some "")
    specific_stats w =
  get_teams transport json_loads team_ids show_roster show_expanded_roster
    show_upcoming_game show_previous_game show_stats None specific_stats w.
Proof. split; reflexivity. Qed.

End Teams.

(** X10: the request a call makes is fixed by the call and the client
    alone.  Against any two transports and decoders, and after any two
    histories, the same call on the same client adds the same requests to
    the log: nothing a server answered earlier changes what is asked next. *)
Theorem run_call_request_independent
    (transport1 transport2 : list request → request → string + response)
    (json_loads1 json_loads2 : string → option pyval)
    (c : call) (client : Client) (log1 log2 : list request) :
  ∃ added,
    sent (run_call transport1 json_loads1 c (World client log1)).1 =
      log1 ++ added ∧
    sent (run_call transport2 json_loads2 c (World client log2)).1 =
      log2 ++ added.
Proof.
  destruct c as [i|i|y|i|[|p]|[|p]|[|p] [|se]|[|p]|t r er ug pg st se sp|[|t]];
    simpl; try (by exists []; rewrite !app_nil_r).
  - rewrite !get_conferences_eq, !_get_response_json_unfold. by eexists.
  - rewrite !get_divisions_eq, !_get_response_json_unfold. by eexists.
  - rewrite !get_franchises_eq, !_get_response_json_unfold. by eexists.
  - rewrite !get_player_eq, !_get_response_json_unfold. by eexists.
  - rewrite !get_player_stats_eq, !_get_response_json_unfold. by eexists.
  - rewrite !get_player_stats_for_season_eq. unfold discard.
    rewrite !_get_response_json_unfold. by eexists.
  - rewrite !get_player_stats_year_by_year_eq, !_get_response_json_unfold.
    by eexists.
  - destruct (r || er || ug || pg || st) eqn:Hflag.
    { rewrite !get_teams_flag_set by done. by exists []; rewrite !app_nil_r. }
    destruct r, er, ug, pg, st; try discriminate Hflag.
    destruct sp as [stats|].
    + rewrite !get_teams_plain.
      destruct t as [[|id1 [|id2 ids]]|]; rewrite !_get_response_json_unfold;
        by eexists.
    + rewrite !get_teams_stats_None. by exists []; rewrite !app_nil_r.
  - rewrite !get_team_roster_eq, !_get_response_json_unfold. by eexists.
Qed.

(** *** The properties with a precondition, at concrete inputs *)

(** X6 at the roster of team 1, answered with the empty JSON object. *)
Lemma run_call_passthrough_witness :
  is_season_call (Call_get_team_roster (Given "1")) = false ∧
  run_call (mock_transport 200 "{}") mock_json_loads
    (Call_get_team_roster (Given "1")) init_world =
  (World Client_init
     [Request "https://statsapi.web.nhl.com/api/v1/teams/1/roster" None],
   Ok (PDict [])) ∧
  ∃ r resp,
    sent (World Client_init
            [Request "https://statsapi.web.nhl.com/api/v1/teams/1/roster"
               None]) = sent init_world ++ [r] ∧
    mock_transport 200 "{}" (sent init_world) r = inr resp ∧
    mock_json_loads (text resp) = Some (PDict []).
Proof.
  split; [reflexivity|]. split; [reflexivity|].
  apply (run_call_passthrough (mock_transport 200 "{}") mock_json_loads
           (Call_get_team_roster (Given "1")) init_world); reflexivity.
Defined.

(** X8 at the player 8471214, on a network that is down. *)
Lemma run_call_outcome_of_answer_witness :
  sent (run_call down_transport mock_json_loads
          (Call_get_player (Given "8471214")) init_world).1 =
    sent init_world ++
      [Request "https://statsapi.web.nhl.com/api/v1/people/8471214" None] ∧
  (run_call down_transport mock_json_loads
     (Call_get_player (Given "8471214")) init_world).2 =
    Raise (RequestException "connection refused").
Proof.
  split; [reflexivity|].
  apply (run_call_outcome_of_answer down_transport mock_json_loads
           (Call_get_player (Given "8471214")) init_world
           (Request "https://statsapi.web.nhl.com/api/v1/people/8471214"
              None)).
  reflexivity.
Defined.

(** X2 at division 17. *)
Lemma get_divisions_url_witness :
  "17" ≠ "" ∧
  sent (get_divisions (mock_transport 200 "{}") mock_json_loads (Some "17")
          init_world).1 =
    [Request "https://statsapi.web.nhl.com/api/v1/divisions/17" None] ∧
  sent (get_divisions (mock_transport 200 "{}") mock_json_loads None
          init_world).1 =
    [Request "https://statsapi.web.nhl.com/api/v1/divisions" None].
Proof.
  split; [discriminate|].
  apply (get_divisions_url (mock_transport 200 "{}") mock_json_loads "17"
           init_world).
  discriminate.
Defined.

(** X3 at franchise 5. *)
Lemma get_franchises_url_witness :
  "5" ≠ "" ∧
  sent (get_franchises (mock_transport 200 "{}") mock_json_loads (Some "5")
          init_world).1 =
    [Request "https://statsapi.web.nhl.com/api/v1/franchises/5" None] ∧
  sent (get_franchises (mock_transport 200 "{}") mock_json_loads None
          init_world).1 =
    [Request "https://statsapi.web.nhl.com/api/v1/franchises" None].
Proof.
  split; [discriminate|].
  apply (get_franchises_url (mock_transport 200 "{}") mock_json_loads "5"
           init_world).
  discriminate.
Defined.
